(** * The driver of the equilibrium equation solver (main.cpp)

    A shallow embedding of [main] and of the DEBUG-only routine [showArgs].
    The driver reads a [Problem], picks one solver class, runs it once and
    reports the moments; everything it does to the outside world (calls to
    [printf], solver construction, the [solve] call, [storeVector]) is
    recorded in an event log, and the process exit status is the value the
    run returns.  One call of the DEBUG-only routine may read a pointer
    that was never assigned; the log marks that read, and the properties
    of whole runs are stated for the runs that do not make it. *)

From Stdlib Require Import ZArith List String Ascii Bool Lia.
From Stdlib Require Import Floats.PrimFloat.
Import ListNotations.

Local Open Scope string_scope.
Local Open Scope Z_scope.

(** ** C values *)

(** A C [double] is an IEEE binary64 number. *)
Definition double : Set := float.

(** A [const char *] as a callee sees it: a local that was never assigned,
    the null pointer, or a pointer to a NUL-terminated string. *)
Inductive cstr : Set :=
| Indeterminate
| NullPtr
| Chars (s : string).

(** One argument of a variadic call. *)
Inductive vararg : Set :=
| VInt (z : Z)
| VDouble (x : double)
| VStr (p : cstr).

Definition nl : string := String "010" EmptyString.
Definition dquote : string := String "034" EmptyString.

(** ** printf: format directives

    Only the directives main.cpp uses are modelled: an optional decimal
    field width, an optional precision (a literal or [*]), the length
    modifier [l], and the conversions [f], [d] and [s]; [%%] is a literal
    percent sign. *)

Inductive precision : Set :=
| prec_none
| prec_star
| prec_lit (n : nat).

Inductive directive : Set :=
| d_char (c : ascii)
| d_conv (width : option nat) (prec : precision) (conv : ascii).

Inductive pstate : Set :=
| in_text
| in_width (w : option nat)
| at_dot (w : option nat)
| in_prec (w : option nat) (p : precision)
| in_length (w : option nat) (p : precision).

Definition digit_of (c : ascii) : option nat :=
  let n := nat_of_ascii c in
  if ((48 <=? n) && (n <=? 57))%nat then Some (n - 48)%nat else None.

Definition is_conv (c : ascii) : bool :=
  Ascii.eqb c "f" || Ascii.eqb c "d" || Ascii.eqb c "s".

Definition push_digit (w : option nat) (k : nat) : option nat :=
  match w with
  | None => Some k
  | Some n => Some (10 * n + k)%nat
  end.

Fixpoint directives (st : pstate) (fmt : string) : option (list directive) :=
  match fmt with
  | EmptyString =>
      match st with
      | in_text => Some []
      | _ => None
      end
  | String c rest =>
      let conv w p :=
        if is_conv c
        then option_map (cons (d_conv w p c)) (directives in_text rest)
        else None in
      let conv_or_length w p :=
        if Ascii.eqb c "l" then directives (in_length w p) rest else conv w p in
      match st with
      | in_text =>
          if Ascii.eqb c "%" then directives (in_width None) rest
          else option_map (cons (d_char c)) (directives in_text rest)
      | in_width w =>
          match digit_of c, w with
          | Some k, _ => directives (in_width (push_digit w k)) rest
          | None, None =>
              if Ascii.eqb c "%"
              then option_map (cons (d_char c)) (directives in_text rest)
              else if Ascii.eqb c "." then directives (at_dot w) rest
              else conv_or_length w prec_none
          | None, Some _ =>
              if Ascii.eqb c "." then directives (at_dot w) rest
              else conv_or_length w prec_none
          end
      | at_dot w =>
          match digit_of c with
          | Some k => directives (in_prec w (prec_lit k)) rest
          | None =>
              if Ascii.eqb c "*" then directives (in_prec w prec_star) rest
              else conv_or_length w (prec_lit 0)
          end
      | in_prec w p =>
          match digit_of c, p with
          | Some k, prec_lit n => directives (in_prec w (prec_lit (10 * n + k))) rest
          | Some _, _ => None
          | None, _ => conv_or_length w p
          end
      | in_length w p => conv w p
      end
  end.

(** What one directive puts on the output once its arguments are known.
    A converted [double] keeps its field width and its precision; the
    precision is [None] when the directive gives none. *)
Inductive piece : Set :=
| out_char (c : ascii)
| out_double (width : option nat) (prec : option Z) (x : double)
| out_int (z : Z)
| out_str (p : cstr).

Definition convert (w : option nat) (prec : option Z) (conv : ascii)
    (a : vararg) : option piece :=
  match a with
  | VDouble x => if Ascii.eqb conv "f" then Some (out_double w prec x) else None
  | VInt z => if Ascii.eqb conv "d" then Some (out_int z) else None
  | VStr p => if Ascii.eqb conv "s" then Some (out_str p) else None
  end.

Fixpoint consume (ds : list directive) (args : list vararg)
  : option (list piece) :=
  match ds with
  | [] => Some []
  | d_char c :: ds' => option_map (cons (out_char c)) (consume ds' args)
  | d_conv w prec_star conv :: ds' =>
      match args with
      | VInt n :: a :: args' =>
          match convert w (Some n) conv a with
          | Some pc => option_map (cons pc) (consume ds' args')
          | None => None
          end
      | _ => None
      end
  | d_conv w p conv :: ds' =>
      match args with
      | a :: args' =>
          let prec := match p with prec_lit n => Some (Z.of_nat n) | _ => None end in
          match convert w prec conv a with
          | Some pc => option_map (cons pc) (consume ds' args')
          | None => None
          end
      | [] => None
      end
  end.

(** The pieces a call [printf(fmt, args...)] writes, or [None] when the
    format is malformed or the arguments do not fit it. *)
Definition printf_pieces (fmt : string) (args : list vararg)
  : option (list piece) :=
  match directives in_text fmt with
  | Some ds => consume ds args
  | None => None
  end.

Definition text (s : string) : list piece :=
  map out_char (list_ascii_of_string s).


(** ** The help text *)

Definition REFERENCE_MESSAGE : string :=
  "EQUILIBRIUM EQUATION SOLVER" ++ nl ++ nl ++
  "This program is used for solving an integral equation that appears" ++ nl ++
  "in the Ulf Dieckmann and Richard Law's biological model of one species." ++ nl ++
  "This equation describes the second spatial moment in the equilibrium state." ++ nl ++
  "The program uses the second order closure of the third moment:" ++ nl ++ nl ++
  "              1   C(x)C(y)    C(x)C(y-x)    C(y)C(y-x)" ++ nl ++
  "    T(x, y) =---(A-------- + B---------- + G---------- - BN^3)" ++ nl ++
  "             A+B     N            N             N" ++ nl ++ nl ++
  "where A, B and G are alpha, beta and gamma parameters respectively." ++ nl ++
  "List of possible cmd arguments:" ++ nl ++
  "-k*   - set kernel type, where * is one of the letters:" ++ nl ++
  "    n - normal kernels" ++ nl ++
  "    k - kurtic kernels where m(x) = w(x)" ++ nl ++
  "    K - general kurtic kernels" ++ nl ++
  "    e - exponential Danchencko's kernels" ++ nl ++
  "    r - roughgarden kernels" ++ nl ++
  "    p - exponent polynomial kernels" ++ nl ++
  "    c - constant kernels" ++ nl ++
  "    After kernel type you must write kernel parameters:" ++ nl ++
  "      + birth and death kernel standard deviation for normal kernels" ++ nl ++
  "      + s0 and s1 parameters for kurtic kernels" ++ nl ++
  "      + s0m, s1m, s0w and s1w parameters for general kurtic kernels" ++ nl ++
  "      + A and B parameters for Danchencko's kernels" ++ nl ++
  "      + sm, gamma_m, sw and gamma_w parameters for roughgarden kernels" ++ nl ++
  "      + am, bm, aw and bw parameters for exponent polynomial kernels" ++ nl ++
  "      + birth and death radius for constatnt kernels" ++ nl ++
  "-A - alpha parameter of second order closure" ++ nl ++
  "-B - beta parameter of second order closure" ++ nl ++
  "-G - gamma parameter of second order closure" ++ nl ++
  "-m - equation solving method. Can be one of the following types:" ++ nl ++
  "         neuman - Neuman method for nonlinear case (default value)" ++ nl ++
  "         lneuman - Neuman method for linear case (LINEAR)" ++ nl ++
  "         nystrom - Nystrom method (LINEAR)" ++ nl ++
  "     Note that using method marked as LINEAR leads to ignoring" ++ nl ++
  "     A, B and G parameters and using the asymmetric second order" ++ nl ++
  "     closure (A = 1, B = G = 0). That makes equilibrium equation" ++ nl ++
  "     linear one. Moreover LINEAR methods are used only in the 1D or 3D" ++ nl ++
  "     case." ++ nl ++
  "-d - environmental death rating" ++ nl ++
  "-b - species birth rating" ++ nl ++
  "-s - species death rating" ++ nl ++
  "-r - size of area (give 'n' to use autocomputed size)" ++ nl ++
  "-D - dimensionality of space" ++ nl ++
  "-i - iteration count" ++ nl ++
  "-n - grid node count" ++ nl ++
  "-p - path to store data (give 'n' to don't create a data file)" ++ nl ++
  "-e - accuracy in decimal places" ++ nl ++
  "-h - show this help" ++ nl ++ nl ++
  "See more information about this model in the papers.".

(** ** The collaborators' data, as the driver reads it *)

(** The getters [showArgs] calls on each kernel class (kernels.hpp). *)
Record NormalKernels : Set :=
  { getSigmaM : double; getSigmaW : double }.
Record KurticKernels : Set :=
  { getS0m : double; getS1m : double; getS0w : double; getS1w : double }.
Record ExponentKernels : Set :=
  { getA : double; getB : double }.
Record RoughgardenKernels : Set :=
  { getSM : double; getGM : double; getSW : double; getGW : double }.
Record ExponentPolynomialKernels : Set :=
  { getAM : double; getBM : double; getAW : double; getBW : double }.

(** The kernel object behind [problem.getKernels()], seen through the five
    [dynamic_cast]s of [showArgs]: each cast gives the null pointer ([None])
    or a view of the object as that class.  The class hierarchy is declared
    in kernels.hpp, so nothing is assumed on which casts succeed together. *)
Record Kernels : Set :=
  { cast_NormalKernels : option NormalKernels;
    cast_KurticKernels : option KurticKernels;
    cast_ExponentKernels : option ExponentKernels;
    cast_RoughgardenKernels : option RoughgardenKernels;
    cast_ExponentPolynomialKernels : option ExponentPolynomialKernels }.

(** What the accessors of an initialized [Problem] return.  [method] is a
    value of the enumeration declared in problem.hpp, kept as the integer it
    is; [path] is a [const char *], [None] being the null pointer. *)
Module Problem.
Record t : Set :=
  { getKernels : Kernels;
    method : Z;
    R : double;
    nodes : Z;
    iters : Z;
    b : double;
    s : double;
    d : double;
    alpha : double;
    beta : double;
    gamma : double;
    accurancy : Z;
    step : double;
    origin : double;
    dimension : Z;
    path : option string }.
End Problem.

(** The public members of [Result] that [main] reads. *)
Module Result.
Record t : Set :=
  { C : list double;
    N : double }.
End Result.

(** The concrete classes [main] instantiates behind [AbstractSolver *]. *)
Inductive AbstractSolver : Set :=
| LinearSolver
| NystromSolver
| SolverFFT
| SolverDHTNaive.

(** The two macros that select code at compile time. *)
Record Build : Set :=
  { DEBUG : bool;
    ASCETIC : bool }.

(** ** Effects *)

Inductive event : Set :=
| printf (format : string) (args : list vararg)
| new_solver (c : AbstractSolver)
| solve_call (c : AbstractSolver) (problem : Problem.t) (answer : Result.t)
| storeVector (C : list double) (path : string) (nodes : Z)
              (step origin : double) (accurancy : Z)
| delete_solver (c : AbstractSolver).

(** A run: the events it performed, in order, and its value. *)
Definition io (A : Type) : Type := (list event * A)%type.

Definition ret {A : Type} (a : A) : io A := ([], a).

Definition bind {A B : Type} (m : io A) (k : A -> io B) : io B :=
  let (t1, a) := m in
  let (t2, r) := k a in
  ((t1 ++ t2)%list, r).

Definition emit (e : event) : io unit := ([e], tt).

Declare Scope io_scope.
Delimit Scope io_scope with io.
Notation "x <- m ;; k" := (bind m (fun x => k))
  (at level 61, m at next level, right associativity) : io_scope.
Notation "m ;; k" := (bind m (fun _ => k))
  (at level 61, right associativity) : io_scope.

Definition trace {A : Type} (m : io A) : list event := fst m.
Definition value {A : Type} (m : io A) : A := snd m.

(** ** Reading an event log *)

(** The solver classes instantiated, in order. *)
Definition constructed (t : list event) : list AbstractSolver :=
  flat_map (fun e => match e with new_solver c => [c] | _ => [] end) t.

(** The calls of [solve]: the class it ran on, its argument, its result. *)
Definition solves (t : list event)
  : list (AbstractSolver * Problem.t * Result.t) :=
  flat_map (fun e => match e with
                     | solve_call c p a => [(c, p, a)]
                     | _ => []
                     end) t.

(** The calls of [VectorHandler::storeVector]. *)
Definition stores (t : list event) : list event :=
  filter (fun e => match e with storeVector _ _ _ _ _ _ => true | _ => false end) t.

(** The events that follow the first call of [solve]. *)
Fixpoint after_solve (t : list event) : list event :=
  match t with
  | [] => []
  | solve_call _ _ _ :: t' => t'
  | _ :: t' => after_solve t'
  end.

(** What the [printf] calls of a log write. *)
Definition pieces_of (e : event) : list piece :=
  match e with
  | printf fmt args =>
      match printf_pieces fmt args with
      | Some ps => ps
      | None => []
      end
  | _ => []
  end.

Definition printed (t : list event) : list piece := flat_map pieces_of t.

(** The [double]s, integers and strings among them, each [double] with the
    field width and the precision it is converted with. *)
Definition doubles_printed (t : list event)
  : list (option nat * option Z * double) :=
  flat_map (fun pc => match pc with
                      | out_double w p x => [(w, p, x)]
                      | _ => []
                      end) (printed t).

Definition ints_printed (t : list event) : list Z :=
  flat_map (fun pc => match pc with out_int z => [z] | _ => [] end) (printed t).

Definition strings_printed (t : list event) : list cstr :=
  flat_map (fun pc => match pc with out_str p => [p] | _ => [] end) (printed t).

(** ** Closure weights *)

(** Modelled from the spec: the bodies of the solver classes are not among
    the sources, so the weights a solver works with are taken from the
    help text of main.cpp and from the spec.  A method marked LINEAR
    ignores the A, B and G parameters and uses the asymmetric closure
    A = 1, B = G = 0; the other solvers use the [Problem]'s stored
    alpha, beta and gamma. *)
Definition closure_weights (c : AbstractSolver) (problem : Problem.t)
  : double * double * double :=
  match c with
  | LinearSolver | NystromSolver => (1%float, 0%float, 0%float)
  | SolverFFT | SolverDHTNaive =>
      (Problem.alpha problem, Problem.beta problem, Problem.gamma problem)
  end.

(** The [Problem] with its three weights replaced. *)
Definition with_weights (problem : Problem.t) (w : double * double * double)
  : Problem.t :=
  let '(a, b, g) := w in
  {| Problem.getKernels := Problem.getKernels problem;
     Problem.method := Problem.method problem;
     Problem.R := Problem.R problem;
     Problem.nodes := Problem.nodes problem;
     Problem.iters := Problem.iters problem;
     Problem.b := Problem.b problem;
     Problem.s := Problem.s problem;
     Problem.d := Problem.d problem;
     Problem.alpha := a;
     Problem.beta := b;
     Problem.gamma := g;
     Problem.accurancy := Problem.accurancy problem;
     Problem.step := Problem.step problem;
     Problem.origin := Problem.origin problem;
     Problem.dimension := Problem.dimension problem;
     Problem.path := Problem.path problem |}.

(** Modelled from the spec: the bodies of the solver classes are not among
    the sources.  Every solver realizes the same equation and differs by
    its discretization only, and the weights that enter it are the closure
    weights of its class; so [solve] on class [c] is the numerical scheme
    of [c], here the parameter [scheme], run on the [Problem] with its
    weights replaced by [closure_weights c]. *)
Definition solve_with_closure
    (scheme : AbstractSolver -> Problem.t -> Result.t)
    (c : AbstractSolver) (problem : Problem.t) : Result.t :=
  scheme c (with_weights problem (closure_weights c problem)).

(** ** A sample configuration

    The linear one-dimensional scenario: normal kernels with both standard
    deviations 1, method nystrom, 50 nodes on a domain of radius 10, four
    decimal places.  It serves to evaluate the definitions below. *)
Module Sample.
Definition success : Z := 0.
Definition help : Z := 1.
Definition error : Z := 2.

Definition nonlinear_neuman : Z := 0.
Definition linear_neuman : Z := 1.
Definition nystrom : Z := 2.

Definition kernels : Kernels :=
  {| cast_NormalKernels := Some {| getSigmaM := 1%float; getSigmaW := 1%float |};
     cast_KurticKernels := None;
     cast_ExponentKernels := None;
     cast_RoughgardenKernels := None;
     cast_ExponentPolynomialKernels := None |}.

Definition problem : Problem.t :=
  {| Problem.getKernels := kernels;
     Problem.method := nystrom;
     Problem.R := 10%float;
     Problem.nodes := 50;
     Problem.iters := 1000;
     Problem.b := 1%float;
     Problem.s := 0.125%float;
     Problem.d := 0.125%float;
     Problem.alpha := 0.5%float;
     Problem.beta := 0.25%float;
     Problem.gamma := 0.25%float;
     Problem.accurancy := 4;
     Problem.step := 0.25%float;
     Problem.origin := 0%float;
     Problem.dimension := 1;
     Problem.path := Some "c.txt" |}.

(** A planar variant that asks for an undeclared method and no file. *)
Definition planar : Problem.t :=
  {| Problem.getKernels :=
       {| cast_NormalKernels := None;
          cast_KurticKernels := None;
          cast_ExponentKernels := None;
          cast_RoughgardenKernels := None;
          cast_ExponentPolynomialKernels := None |};
     Problem.method := 7;
     Problem.R := 10%float;
     Problem.nodes := 50;
     Problem.iters := 1000;
     Problem.b := 1%float;
     Problem.s := 0.125%float;
     Problem.d := 0.125%float;
     Problem.alpha := 0.5%float;
     Problem.beta := 0.25%float;
     Problem.gamma := 0.25%float;
     Problem.accurancy := 4;
     Problem.step := 0.25%float;
     Problem.origin := 0%float;
     Problem.dimension := 2;
     Problem.path := None |}.

(** The first scenario on a coarser grid, with other weights, two decimal
    places and no file. *)
Definition coarse : Problem.t :=
  {| Problem.getKernels := kernels;
     Problem.method := nystrom;
     Problem.R := 10%float;
     Problem.nodes := 10;
     Problem.iters := 50;
     Problem.b := 1%float;
     Problem.s := 0.125%float;
     Problem.d := 0.125%float;
     Problem.alpha := 1%float;
     Problem.beta := 0%float;
     Problem.gamma := 0%float;
     Problem.accurancy := 2;
     Problem.step := 1%float;
     Problem.origin := 0%float;
     Problem.dimension := 1;
     Problem.path := None |}.

(** The first scenario with an undeclared method. *)
Definition stray : Problem.t :=
  {| Problem.getKernels := kernels;
     Problem.method := 7;
     Problem.R := 10%float;
     Problem.nodes := 50;
     Problem.iters := 1000;
     Problem.b := 1%float;
     Problem.s := 0.125%float;
     Problem.d := 0.125%float;
     Problem.alpha := 0.5%float;
     Problem.beta := 0.25%float;
     Problem.gamma := 0.25%float;
     Problem.accurancy := 4;
     Problem.step := 0.25%float;
     Problem.origin := 0%float;
     Problem.dimension := 1;
     Problem.path := Some "c.txt" |}.

(** A planar scenario with the nonlinear method and a kernel object of
    none of the five classes [showArgs] knows. *)
Definition tophat : Problem.t :=
  {| Problem.getKernels :=
       {| cast_NormalKernels := None;
          cast_KurticKernels := None;
          cast_ExponentKernels := None;
          cast_RoughgardenKernels := None;
          cast_ExponentPolynomialKernels := None |};
     Problem.method := nonlinear_neuman;
     Problem.R := 10%float;
     Problem.nodes := 50;
     Problem.iters := 1000;
     Problem.b := 1%float;
     Problem.s := 0.125%float;
     Problem.d := 0.125%float;
     Problem.alpha := 0.5%float;
     Problem.beta := 0.25%float;
     Problem.gamma := 0.25%float;
     Problem.accurancy := 4;
     Problem.step := 0.25%float;
     Problem.origin := 0%float;
     Problem.dimension := 2;
     Problem.path := None |}.

(** A stand-in for [Problem::init]: no argument gives [problem], the
    single argument [-n10] gives [coarse], [-D2] gives [planar], [-m7]
    gives [stray] and [-kc] gives [tophat]; [-h] asks for help and
    anything else is an error. *)
Definition init (argv : list string) : Z * Problem.t :=
  match argv with
  | [_] => (success, problem)
  | [_; "-n10"] => (success, coarse)
  | [_; "-D2"] => (success, planar)
  | [_; "-m7"] => (success, stray)
  | [_; "-kc"] => (success, tophat)
  | [_; "-h"] => (help, problem)
  | _ => (error, problem)
  end.

Definition solve (c : AbstractSolver) (p : Problem.t) : Result.t :=
  {| Result.C := [3%float; 2.5%float; 2.25%float]; Result.N := 2%float |}.

Definition getC0 (r : Result.t) : double :=
  hd 0%float (Result.C r).


(** A numerical scheme that answers with the weights it was given. *)
Definition echo (c : AbstractSolver) (p : Problem.t) : Result.t :=
  {| Result.C := [Problem.alpha p; Problem.beta p; Problem.gamma p];
     Result.N := Problem.alpha p |}.

Definition release : Build := {| DEBUG := false; ASCETIC := false |}.
Definition debug : Build := {| DEBUG := true; ASCETIC := false |}.
Definition ascetic : Build := {| DEBUG := false; ASCETIC := true |}.
End Sample.

(** ** The program *)

Section Main.

Local Open Scope io_scope.

(** The enumerators [Problem::success] and [Problem::help] of the status
    [Problem::init] returns, and the enumerators of the solving method;
    problem.hpp declares them, so their values are parameters here. *)
Variables success help : Z.
Variables nonlinear_neuman linear_neuman nystrom : Z.

(** [equation.init(argc, argv)]: the status it returns and the state it
    leaves [equation] in. *)
Variable init : list string -> Z * Problem.t.

(** Modelled from the spec: the solver classes and [Result::getC0] are
    declared in solver.hpp, which is not among the sources.  The spec
    describes a solver as a stateless strategy object that consumes a
    Problem and produces exactly one Result per invocation, and C(0) as
    an accessor derived from the Result; [solve c problem] is the Result
    of [solve] on a default-constructed object of class [c]. *)
Variable solve : AbstractSolver -> Problem.t -> Result.t.
Variable getC0 : Result.t -> double.

(** [new T()] for one of the solver classes. *)
Definition new (c : AbstractSolver) : io AbstractSolver :=
  emit (new_solver c) ;; ret c.

(** [solver->solve(equation)], dispatched on the object's class. *)
Definition call_solve (solver : AbstractSolver) (equation : Problem.t)
  : io Result.t :=
  let answer := solve solver equation in
  emit (solve_call solver equation answer) ;; ret answer.

(** [showArgs], lines 68-117: the chain of [dynamic_cast]s on the kernel
    object.  The first cast that does not give the null pointer decides
    what is printed. *)
Definition showKernels (k : Kernels) : io unit :=
  match cast_NormalKernels k with
  | Some kn =>
      emit (printf ("Normal kernels: sm = %.5lf, sw = %.5lf" ++ nl)
              [VDouble (getSigmaM kn); VDouble (getSigmaW kn)])
  | None =>
  match cast_KurticKernels k with
  | Some kk =>
      emit (printf ("Kurtic kernels: sm0 = %.5lf, sm1 = %.5lf" ++ nl ++
                    "                sw0 = %.5lf, sw1 = %.5lf" ++ nl)
              [VDouble (getS0m kk); VDouble (getS1m kk);
               VDouble (getS0w kk); VDouble (getS1w kk)])
  | None =>
  match cast_ExponentKernels k with
  | Some ke =>
      emit (printf ("Exponent kernels: sm = %.5lf, sw = %.5lf" ++ nl)
              [VDouble (getA ke); VDouble (getB ke)])
  | None =>
  match cast_RoughgardenKernels k with
  | Some kr =>
      emit (printf ("Roughgarden kernels: sm = %.5lf, gamma_m = %.5lf" ++ nl ++
                    "                     sw = %.5lf, gamma_w = %.5lf" ++ nl)
              [VDouble (getSM kr); VDouble (getGM kr);
               VDouble (getSW kr); VDouble (getGW kr)])
  | None =>
  match cast_ExponentPolynomialKernels k with
  | Some kep =>
      emit (printf ("Exponent polynomial kernels: sm = %.5lf, gamma_m = %.5lf" ++ nl ++
                    "                             sw = %.5lf, gamma_w = %.5lf" ++ nl)
              [VDouble (getAM kep); VDouble (getBM kep);
               VDouble (getAW kep); VDouble (getBW kep)])
  | None => ret tt
  end end end end end.

(** The method values that [showArgs] has a name for. *)
Definition declared (m : Z) : Prop :=
  m = nonlinear_neuman \/ m = linear_neuman \/ m = nystrom.

(** [showArgs], lines 121-128: the value of the local [methodName] once
    the three tests on [method()] are done.  No branch assigns it when all
    three fail. *)
Definition methodName (problem : Problem.t) : cstr :=
  if Problem.method problem =? nonlinear_neuman then Chars "neuman nonlinear"
  else if Problem.method problem =? linear_neuman then Chars "neuman linear"
  else if Problem.method problem =? nystrom then Chars "nystrom"
  else Indeterminate.

(** [showArgs], lines 130-152: the call that prints the scalar fields and
    [methodName], and the optional path.  When [methodName] is
    [Indeterminate] the behaviour of the program is undefined from the
    first call on: the log then says which call reads it, and what it
    lists after that call is no account of the run. *)
Definition showFields (problem : Problem.t) : io unit :=
  emit (printf ("R = %10.5lf" ++ nl ++ "n_count = %d" ++ nl ++
                "i_count = %d" ++ nl ++ "b = %10.5lf" ++ nl ++
                "s = %10.5lf" ++ nl ++ "d = %10.5lf" ++ nl ++
                "alpha = %10.5lf" ++ nl ++ "beta = %10.5lf" ++ nl ++
                "gamma = %10.5lf" ++ nl ++ "accurancy = %d" ++ nl ++
                "step = %10.5lf" ++ nl ++ "dimension = %d" ++ nl ++
                "method: %s" ++ nl)
          [VDouble (Problem.R problem);
           VInt (Problem.nodes problem);
           VInt (Problem.iters problem);
           VDouble (Problem.b problem);
           VDouble (Problem.s problem);
           VDouble (Problem.d problem);
           VDouble (Problem.alpha problem);
           VDouble (Problem.beta problem);
           VDouble (Problem.gamma problem);
           VInt (Problem.accurancy problem);
           VDouble (Problem.step problem);
           VInt (Problem.dimension problem);
           VStr (methodName problem)]) ;;
  match Problem.path problem with
  | Some file => emit (printf ("path = '%s'" ++ nl) [VStr (Chars file)])
  | None => ret tt
  end.

Definition showArgs (problem : Problem.t) : io unit :=
  emit (printf ("-------------------------------------" ++ nl) []) ;;
  showKernels (Problem.getKernels problem) ;;
  showFields problem ;;
  emit (printf ("-------------------------------------" ++ nl) []).

(** [argv[0]]; [argv[argc]] is the null pointer. *)
Definition argv0 (argv : list string) : cstr :=
  match argv with
  | a :: _ => Chars a
  | [] => NullPtr
  end.

(** The runs of which the log and the exit status below are an account:
    [showArgs] is not compiled in, or it has a name for the method.  In
    the other runs [showArgs] reads a pointer that was never assigned, and
    the log is an account up to that call only (see [until_undefined]). *)
Definition well_defined (build : Build) (equation : Problem.t) : Prop :=
  DEBUG build = false \/ declared (Problem.method equation).

Definition main (build : Build) (argv : list string) : io Z :=
  let (status, equation) := init argv in
  if negb (status =? success) then
    if status =? help then
      emit (printf REFERENCE_MESSAGE []) ;;
      ret 0
    else
      emit (printf (nl ++ "Run " ++ dquote ++ "%s -h" ++ dquote ++
                    " to get reference" ++ nl) [VStr (argv0 argv)]) ;;
      ret 1
  else
    (if DEBUG build then showArgs equation else ret tt) ;;
    solver <-
      (if (Problem.dimension equation =? 1) || (Problem.dimension equation =? 3)
       then
         if Problem.method equation =? linear_neuman then new LinearSolver
         else if Problem.method equation =? nystrom then new NystromSolver
         else new SolverFFT
       else new SolverDHTNaive) ;;
    answer <- call_solve solver equation ;;
    (if ASCETIC build then
       emit (printf ("%15.*lf" ++ nl)
               [VInt (Problem.accurancy equation); VDouble (Result.N answer)])
     else
       emit (printf ("First moment: %.*lf" ++ nl ++ "C(0) = %.*lf" ++ nl)
               [VInt (Problem.accurancy equation); VDouble (Result.N answer);
                VInt (Problem.accurancy equation); VDouble (getC0 answer)])) ;;
    match Problem.path equation with
    | Some file =>
        emit (storeVector (Result.C answer) file
                (Problem.nodes equation) (Problem.step equation)
                (Problem.origin equation) (Problem.accurancy equation))
    | None => ret tt
    end ;;
    emit (delete_solver solver) ;;
    ret 0.

(** The class [main] instantiates, as a function of the [Problem]. *)
Definition selected (equation : Problem.t) : AbstractSolver :=
  if (Problem.dimension equation =? 1) || (Problem.dimension equation =? 3)
  then
    if Problem.method equation =? linear_neuman then LinearSolver
    else if Problem.method equation =? nystrom then NystromSolver
    else SolverFFT
  else SolverDHTNaive.

(** What a DEBUG build prints before the solver is chosen. *)
Definition debug_report (build : Build) (equation : Problem.t) : list event :=
  if DEBUG build then trace (showArgs equation) else [].

(** ** Reading aids for the proofs *)

Definition is_printf (e : event) : bool :=
  match e with
  | printf _ _ => true
  | _ => false
  end.

(** The events of a log other than its [printf] calls: what a run does
    to the heap, to the solver and to the file system. *)
Definition effects (t : list event) : list event :=
  filter (fun e => negb (is_printf e)) t.

(** The number of variadic arguments a format fetches: one for each
    conversion and one more for each [*]. *)
Fixpoint args_needed (ds : list directive) : nat :=
  match ds with
  | [] => 0
  | d_char _ :: ds' => args_needed ds'
  | d_conv _ prec_star _ :: ds' => 2 + args_needed ds'
  | d_conv _ _ _ :: ds' => 1 + args_needed ds'
  end.

(** A [printf] call is well formed when its format parses, it is given as
    many arguments as the format fetches, and each argument has the type
    its conversion expects.  Every other event is. *)
Definition well_formed (e : event) : bool :=
  match e with
  | printf fmt args =>
      match directives in_text fmt with
      | Some ds =>
          Nat.eqb (args_needed ds) (List.length args)
          && match consume ds args with
             | Some _ => true
             | None => false
             end
      | None => false
      end
  | _ => true
  end.

(** A pointer that [%s] may read: it points to a string. *)
Definition is_chars (p : cstr) : bool :=
  match p with
  | Chars _ => true
  | _ => false
  end.

(** Every [%s] of the event reads a string. *)
Definition reads_strings (e : event) : bool :=
  forallb is_chars (strings_printed [e]).

(** The part of a log that is an account of the run: the events up to
    the first [printf] call that hands [%s] a pointer that is not a
    string, that call included.  The behaviour is undefined from there. *)
Fixpoint until_undefined (t : list event) : list event :=
  match t with
  | [] => []
  | e :: t' => if reads_strings e then e :: until_undefined t' else [e]
  end.

Definition is_some {A : Type} (o : option A) : bool :=
  match o with
  | Some _ => true
  | None => false
  end.

Ltac split_matches :=
  repeat match goal with
         | |- context [match ?x with _ => _ end] => destruct x eqn:?
         end.

(** * Properties *)

(** ** The event log of a composed run *)

Lemma trace_bind {A B : Type} (m : io A) (k : A -> io B) :
  trace (bind m k) = (trace m ++ trace (k (value m)))%list.
Proof.
  destruct m as [t a]; unfold bind, trace, value; simpl.
  destruct (k a); reflexivity.
Qed.

Lemma showKernels_prints k : forallb is_printf (trace (showKernels k)) = true.
Proof. unfold showKernels; split_matches; reflexivity. Qed.

Lemma showFields_prints problem :
  forallb is_printf (trace (showFields problem)) = true.
Proof. unfold showFields; destruct (Problem.path problem); reflexivity. Qed.

Lemma showArgs_trace problem :
  trace (showArgs problem)
  = (printf ("-------------------------------------" ++ nl) []
     :: trace (showKernels (Problem.getKernels problem))
     ++ trace (showFields problem)
     ++ [printf ("-------------------------------------" ++ nl) []])%list.
Proof.
  unfold showArgs. rewrite !trace_bind. reflexivity.
Qed.

Lemma showArgs_prints problem :
  forallb is_printf (trace (showArgs problem)) = true.
Proof.
  rewrite showArgs_trace. simpl.
  rewrite !forallb_app, showKernels_prints, showFields_prints. reflexivity.
Qed.

(** A prefix of [printf] calls adds nothing to what the readers of the
    solver events see. *)
Lemma constructed_prints t t' :
  forallb is_printf t = true -> constructed (t ++ t') = constructed t'.
Proof.
  induction t as [|e t IH]; simpl; [reflexivity|].
  destruct e; simpl; try discriminate; exact IH.
Qed.

Lemma solves_prints t t' :
  forallb is_printf t = true -> solves (t ++ t') = solves t'.
Proof.
  induction t as [|e t IH]; simpl; [reflexivity|].
  destruct e; simpl; try discriminate; exact IH.
Qed.

Lemma stores_prints t t' :
  forallb is_printf t = true -> stores (t ++ t') = stores t'.
Proof.
  induction t as [|e t IH]; simpl; [reflexivity|].
  destruct e; simpl; try discriminate; exact IH.
Qed.

Lemma after_solve_prints t t' :
  forallb is_printf t = true -> after_solve (t ++ t') = after_solve t'.
Proof.
  induction t as [|e t IH]; simpl; [reflexivity|].
  destruct e; simpl; try discriminate; exact IH.
Qed.

(** ** A successful start: the whole run *)

Lemma debug_report_prints build equation :
  forallb is_printf (debug_report build equation) = true.
Proof.
  unfold debug_report. destruct (DEBUG build); [apply showArgs_prints | reflexivity].
Qed.

Lemma main_success build argv equation :
  init argv = (success, equation) ->
  let c := selected equation in
  let answer := solve c equation in
  main build argv =
  ((debug_report build equation
    ++ new_solver c
    :: solve_call c equation answer
    :: (if ASCETIC build
        then printf ("%15.*lf" ++ nl)
               [VInt (Problem.accurancy equation); VDouble (Result.N answer)]
        else printf ("First moment: %.*lf" ++ nl ++ "C(0) = %.*lf" ++ nl)
               [VInt (Problem.accurancy equation); VDouble (Result.N answer);
                VInt (Problem.accurancy equation); VDouble (getC0 answer)])
    :: match Problem.path equation with
       | Some file =>
           [storeVector (Result.C answer) file
              (Problem.nodes equation) (Problem.step equation)
              (Problem.origin equation) (Problem.accurancy equation)]
       | None => []
       end
    ++ [delete_solver c])%list, 0).
Proof.
  intros Hinit c answer. subst c answer.
  unfold main, selected, debug_report. rewrite Hinit, Z.eqb_refl. cbn [negb].
  destruct (showArgs equation) as [dbg []] eqn:Hdbg. cbn [trace fst].
  destruct (DEBUG build), (ASCETIC build), (Problem.path equation);
    destruct ((Problem.dimension equation =? 1) || (Problem.dimension equation =? 3));
    destruct (Problem.method equation =? linear_neuman);
    destruct (Problem.method equation =? nystrom);
    cbn; rewrite ?app_nil_r; reflexivity.
Qed.

Lemma main_constructed build argv equation :
  init argv = (success, equation) ->
  constructed (trace (main build argv)) = [selected equation].
Proof.
  intros Hinit. rewrite (main_success build argv equation Hinit).
  cbn [trace fst]. rewrite constructed_prints by apply debug_report_prints.
  destruct (ASCETIC build), (Problem.path equation); reflexivity.
Qed.

Lemma main_solves build argv equation :
  init argv = (success, equation) ->
  solves (trace (main build argv))
  = [(selected equation, equation, solve (selected equation) equation)].
Proof.
  intros Hinit. rewrite (main_success build argv equation Hinit).
  cbn [trace fst]. rewrite solves_prints by apply debug_report_prints.
  destruct (ASCETIC build), (Problem.path equation); reflexivity.
Qed.

Lemma main_after_solve build argv equation :
  init argv = (success, equation) ->
  let c := selected equation in
  let answer := solve c equation in
  after_solve (trace (main build argv))
  = ((if ASCETIC build
      then printf ("%15.*lf" ++ nl)
             [VInt (Problem.accurancy equation); VDouble (Result.N answer)]
      else printf ("First moment: %.*lf" ++ nl ++ "C(0) = %.*lf" ++ nl)
             [VInt (Problem.accurancy equation); VDouble (Result.N answer);
              VInt (Problem.accurancy equation); VDouble (getC0 answer)])
     :: match Problem.path equation with
        | Some file =>
            [storeVector (Result.C answer) file
               (Problem.nodes equation) (Problem.step equation)
               (Problem.origin equation) (Problem.accurancy equation)]
        | None => []
        end
     ++ [delete_solver c])%list.
Proof.
  intros Hinit c answer. rewrite (main_success build argv equation Hinit).
  cbn [trace fst]. rewrite after_solve_prints by apply debug_report_prints.
  reflexivity.
Qed.

(** ** Solver selection *)

(** C1, amended.  After a successful [init], in a build without DEBUG or
    with a method [showArgs] has a name for, [main] instantiates exactly
    one solver class and calls [solve] on it.  In dimension 1 or 3 the
    class is [LinearSolver] for method linear_neuman, [NystromSolver] for
    method nystrom and [SolverFFT] for every other method value; in every
    other dimension it is [SolverDHTNaive], whatever the method. *)
Theorem main_selects_solver build argv equation :
  init argv = (success, equation) ->
  well_defined build equation ->
  linear_neuman <> nystrom ->
  let dim := Problem.dimension equation in
  let m := Problem.method equation in
  let t := trace (main build argv) in
  (dim = 1 \/ dim = 3 -> m = linear_neuman -> constructed t = [LinearSolver])
  /\ (dim = 1 \/ dim = 3 -> m = nystrom -> constructed t = [NystromSolver])
  /\ (dim = 1 \/ dim = 3 -> m <> linear_neuman -> m <> nystrom ->
      constructed t = [SolverFFT])
  /\ (dim <> 1 -> dim <> 3 -> constructed t = [SolverDHTNaive])
  /\ map (fun r => fst (fst r)) (solves t) = constructed t.
Proof.
  intros Hinit _ Hne dim m t. subst t.
  rewrite (main_constructed _ _ _ Hinit), (main_solves _ _ _ Hinit).
  unfold selected. fold dim m.
  repeat split.
  - intros Hd Hm.
    assert (Hdim : (dim =? 1) || (dim =? 3) = true)
      by (destruct Hd as [-> | ->]; reflexivity).
    rewrite Hdim, Hm, Z.eqb_refl. reflexivity.
  - intros Hd Hm.
    assert (Hdim : (dim =? 1) || (dim =? 3) = true)
      by (destruct Hd as [-> | ->]; reflexivity).
    rewrite Hdim, Hm, Z.eqb_refl.
    destruct (Z.eqb_spec nystrom linear_neuman) as [E | _];
      [exfalso; apply Hne; symmetry; exact E | reflexivity].
  - intros Hd Hl Hn.
    assert (Hdim : (dim =? 1) || (dim =? 3) = true)
      by (destruct Hd as [-> | ->]; reflexivity).
    rewrite Hdim.
    destruct (Z.eqb_spec m linear_neuman); [contradiction|].
    destruct (Z.eqb_spec m nystrom); [contradiction|]. reflexivity.
  - intros H1 H3.
    destruct (Z.eqb_spec dim 1); [contradiction|].
    destruct (Z.eqb_spec dim 3); [contradiction|]. reflexivity.
Qed.

(** ** Configuration failures *)

(** C2.  When [init] returns the help status, [main] prints the reference
    message, verbatim, and exits with status 0.  When it returns a status
    that is neither success nor help, [main] prints the line that tells
    the user to run the program with -h and exits with status 1.  In
    both cases no solver is constructed and [solve] is not called. *)
Theorem main_configuration_failure build argv :
  success <> help ->
  let status := fst (init argv) in
  let run := main build argv in
  (status = help ->
     trace run = [printf REFERENCE_MESSAGE []]
     /\ printed (trace run) = text REFERENCE_MESSAGE
     /\ value run = 0)
  /\ (status <> success -> status <> help ->
        printed (trace run)
        = (text (nl ++ "Run " ++ dquote)
           ++ out_str (argv0 argv)
           :: text (" -h" ++ dquote ++ " to get reference" ++ nl))%list
        /\ value run = 1)
  /\ (status <> success ->
        constructed (trace run) = [] /\ solves (trace run) = []
        /\ stores (trace run) = []).
Proof.
  intros Hne status run. subst status run. unfold main.
  destruct (init argv) as [status equation]. cbn [fst].
  split; [|split].
  - intros ->. destruct (Z.eqb_spec help success) as [E | _];
      [exfalso; apply Hne; symmetry; exact E |].
    cbn [negb]. rewrite Z.eqb_refl.
    split; [reflexivity | split; [vm_compute; reflexivity | reflexivity]].
  - intros Hs Hh.
    destruct (Z.eqb_spec status success); [contradiction|].
    destruct (Z.eqb_spec status help); [contradiction|].
    split; reflexivity.
  - intros Hs.
    destruct (Z.eqb_spec status success); [contradiction|].
    destruct (status =? help); repeat split; reflexivity.
Qed.

(** ** A successful start *)

Lemma main_moments build argv equation :
  init argv = (success, equation) ->
  let answer := solve (selected equation) equation in
  let acc := Some (Problem.accurancy equation) in
  doubles_printed (after_solve (trace (main build argv)))
  = if ASCETIC build
    then [(Some 15%nat, acc, Result.N answer)]
    else [(None, acc, Result.N answer); (None, acc, getC0 answer)].
Proof.
  intros Hinit answer acc. rewrite (main_after_solve _ _ _ Hinit).
  destruct (ASCETIC build), (Problem.path equation); reflexivity.
Qed.

Lemma main_value build argv equation :
  init argv = (success, equation) -> value (main build argv) = 0.
Proof.
  intros Hinit. rewrite (main_success _ _ _ Hinit). reflexivity.
Qed.

(** C3, amended.  After a successful [init], in a build without DEBUG or
    with a method [showArgs] has a name for, [main] calls [solve] exactly
    once, on the [Problem] that [init] produced; it prints the first
    moment N of the Result it got (and C(0) as well unless the build is
    ASCETIC) and returns 0.  This holds for every Result [solve] may
    return, so a solver that stopped at the iteration ceiling changes
    neither the exit status nor the report. *)
Theorem main_success_exit build argv equation :
  init argv = (success, equation) ->
  well_defined build equation ->
  let run := main build argv in
  exists c,
    let answer := solve c equation in
    let shown := map snd (doubles_printed (after_solve (trace run))) in
    solves (trace run) = [(c, equation, answer)]
    /\ In (Result.N answer) shown
    /\ (ASCETIC build = false -> In (getC0 answer) shown)
    /\ value run = 0.
Proof.
  intros Hinit _ run. subst run. exists (selected equation). cbv zeta.
  rewrite (main_solves _ _ _ Hinit), (main_moments _ _ _ Hinit),
    (main_value _ _ _ Hinit).
  split; [reflexivity|].
  destruct (ASCETIC build); cbn [map snd]; repeat split;
    try discriminate; intros; simpl; auto.
Qed.

(** ** Storing the vector *)

(** C4, amended.  After a successful [init], in a build without DEBUG or
    with a method [showArgs] has a name for, [storeVector] is called when
    [path()] is not null, once, with the C sequence of the Result of the
    only [solve] call, the path, the node count, the step, the origin and
    the accuracy of the [Problem]; when [path()] is null it is not
    called. *)
Theorem main_stores_vector build argv equation :
  init argv = (success, equation) ->
  well_defined build equation ->
  let t := trace (main build argv) in
  exists c,
    let answer := solve c equation in
    solves t = [(c, equation, answer)]
    /\ stores t
       = match Problem.path equation with
         | Some file =>
             [storeVector (Result.C answer) file
                (Problem.nodes equation) (Problem.step equation)
                (Problem.origin equation) (Problem.accurancy equation)]
         | None => []
         end
    /\ (stores t <> [] <-> Problem.path equation <> None).
Proof.
  intros Hinit _ t. subst t. exists (selected equation). cbv zeta.
  rewrite (main_solves _ _ _ Hinit). split; [reflexivity|].
  rewrite (main_success _ _ _ Hinit). cbn [trace fst].
  rewrite stores_prints by apply debug_report_prints.
  destruct (ASCETIC build), (Problem.path equation); cbn;
    (split; [reflexivity | split; intros H; first [discriminate | congruence]]).
Qed.

(** ** Reporting the moments *)


(** ** Selection depends on two fields only *)

(** X8.  Two successful runs, each in a build without DEBUG or with a
    method [showArgs] has a name for, whose [Problem]s agree on
    [dimension()] and [method()]: each constructs exactly one solver, the
    two are of the same class whatever the other fields and the builds
    are, and each run calls [solve] once, on that class and with its own
    [Problem]. *)
Theorem main_selection_noninterference
    build1 build2 argv1 argv2 equation1 equation2 :
  init argv1 = (success, equation1) ->
  init argv2 = (success, equation2) ->
  well_defined build1 equation1 ->
  well_defined build2 equation2 ->
  Problem.dimension equation1 = Problem.dimension equation2 ->
  Problem.method equation1 = Problem.method equation2 ->
  let t1 := trace (main build1 argv1) in
  let t2 := trace (main build2 argv2) in
  exists c,
    constructed t1 = [c] /\ constructed t2 = [c]
    /\ solves t1 = [(c, equation1, solve c equation1)]
    /\ solves t2 = [(c, equation2, solve c equation2)].
Proof.
  intros H1 H2 _ _ Hd Hm t1 t2. subst t1 t2. exists (selected equation1).
  rewrite (main_constructed _ _ _ H1), (main_constructed _ _ _ H2),
    (main_solves _ _ _ H1), (main_solves _ _ _ H2).
  assert (Hsel : selected equation2 = selected equation1)
    by (unfold selected; rewrite Hd, Hm; reflexivity).
  rewrite Hsel. repeat split; reflexivity.
Qed.

(** ** The diagnostic routine *)

Lemma printed_app t t' : printed (t ++ t') = (printed t ++ printed t')%list.
Proof. apply flat_map_app. Qed.

Lemma strings_printed_app t t' :
  strings_printed (t ++ t') = (strings_printed t ++ strings_printed t')%list.
Proof. unfold strings_printed. rewrite printed_app. apply flat_map_app. Qed.

Lemma showKernels_strings k : strings_printed (trace (showKernels k)) = [].
Proof. unfold showKernels; split_matches; reflexivity. Qed.

Lemma showFields_strings problem :
  strings_printed (trace (showFields problem))
  = methodName problem
    :: match Problem.path problem with
       | Some file => [Chars file]
       | None => []
       end.
Proof.
  unfold showFields, methodName.
  destruct (Problem.path problem); reflexivity.
Qed.

Lemma showArgs_strings problem :
  strings_printed (trace (showArgs problem))
  = methodName problem
    :: match Problem.path problem with
       | Some file => [Chars file]
       | None => []
       end.
Proof.
  rewrite showArgs_trace.
  change (strings_printed (?e :: ?t)) with (strings_printed ([e] ++ t)).
  rewrite !strings_printed_app, showKernels_strings, showFields_strings.
  destruct (Problem.path problem); reflexivity.
Qed.

(** C9.  [showArgs] gives its local [methodName] a value exactly when
    [method()] is nonlinear_neuman, linear_neuman or nystrom.  For every
    other method value the [%s] conversion of its [printf] call reads
    the pointer uninitialized; for these three it reads a string. *)
Theorem showArgs_method_name problem :
  let m := Problem.method problem in
  let shown := strings_printed (trace (showArgs problem)) in
  (In Indeterminate shown
   <-> m <> nonlinear_neuman /\ m <> linear_neuman /\ m <> nystrom)
  /\ hd_error shown = Some (methodName problem)
  /\ (methodName problem <> Indeterminate
      <-> m = nonlinear_neuman \/ m = linear_neuman \/ m = nystrom).
Proof.
  intros m shown. subst shown. rewrite showArgs_strings.
  assert (Hname : methodName problem = Indeterminate
                  <-> m <> nonlinear_neuman /\ m <> linear_neuman /\ m <> nystrom).
  { unfold methodName. fold m.
    destruct (Z.eqb_spec m nonlinear_neuman);
      [split; [discriminate | intros [H _]; contradiction]|].
    destruct (Z.eqb_spec m linear_neuman);
      [split; [discriminate | intros [_ [H _]]; contradiction]|].
    destruct (Z.eqb_spec m nystrom);
      [split; [discriminate | intros [_ [_ H]]; contradiction]|].
    split; auto. }
  split; [|split].
  - rewrite <- Hname. split.
    + intros [H | H]; [exact H|].
      destruct (Problem.path problem); simpl in H;
        [destruct H as [H | []]; discriminate | destruct H].
    + intros H. left. exact H.
  - reflexivity.
  - rewrite Hname. split.
    + intros H.
      destruct (Z.eq_dec m nonlinear_neuman); [auto|].
      destruct (Z.eq_dec m linear_neuman); [auto|].
      destruct (Z.eq_dec m nystrom); [auto|].
      exfalso; apply H; auto.
    + intros [H | [H | H]] [H1 [H2 H3]]; contradiction.
Qed.

Lemma showFields_doubles problem :
  doubles_printed (trace (showFields problem))
  = map (pair (Some 10%nat, Some 5))
      [Problem.R problem; Problem.b problem; Problem.s problem;
       Problem.d problem; Problem.alpha problem; Problem.beta problem;
       Problem.gamma problem; Problem.step problem].
Proof. unfold showFields. destruct (Problem.path problem); reflexivity. Qed.

Lemma showFields_ints problem :
  ints_printed (trace (showFields problem))
  = [Problem.nodes problem; Problem.iters problem;
     Problem.accurancy problem; Problem.dimension problem].
Proof. unfold showFields. destruct (Problem.path problem); reflexivity. Qed.

(** C10.  [showArgs] tries the five kernel classes in the order
    NormalKernels, KurticKernels, ExponentKernels, RoughgardenKernels,
    ExponentPolynomialKernels and prints the parameters of the first one
    the kernel object casts to, with five decimals.  A kernel object that
    casts to none of the five gets no kernel line at all.  Whatever the
    kernel object is, when the method is one [showArgs] has a name for the
    routine goes on to print the scalar fields of the [Problem] between
    its two rules. *)
Theorem showArgs_kernels problem :
  let k := Problem.getKernels problem in
  let K := trace (showKernels k) in
  let shown xs := doubles_printed K = map (pair (None, Some 5)) xs in
  let rule := printf ("-------------------------------------" ++ nl) [] in
  (declared (Problem.method problem) ->
   trace (showArgs problem)
   = (rule :: K ++ trace (showFields problem) ++ [rule])%list)
  /\ (forall kn,
        cast_NormalKernels k = Some kn ->
        shown [getSigmaM kn; getSigmaW kn])
  /\ (forall kk,
        cast_NormalKernels k = None ->
        cast_KurticKernels k = Some kk ->
        shown [getS0m kk; getS1m kk; getS0w kk; getS1w kk])
  /\ (forall ke,
        cast_NormalKernels k = None ->
        cast_KurticKernels k = None ->
        cast_ExponentKernels k = Some ke ->
        shown [getA ke; getB ke])
  /\ (forall kr,
        cast_NormalKernels k = None ->
        cast_KurticKernels k = None ->
        cast_ExponentKernels k = None ->
        cast_RoughgardenKernels k = Some kr ->
        shown [getSM kr; getGM kr; getSW kr; getGW kr])
  /\ (forall kep,
        cast_NormalKernels k = None ->
        cast_KurticKernels k = None ->
        cast_ExponentKernels k = None ->
        cast_RoughgardenKernels k = None ->
        cast_ExponentPolynomialKernels k = Some kep ->
        shown [getAM kep; getBM kep; getAW kep; getBW kep])
  /\ (cast_NormalKernels k = None ->
      cast_KurticKernels k = None ->
      cast_ExponentKernels k = None ->
      cast_RoughgardenKernels k = None ->
      cast_ExponentPolynomialKernels k = None ->
      K = [])
  /\ (declared (Problem.method problem) ->
      doubles_printed (trace (showFields problem))
      = map (pair (Some 10%nat, Some 5))
          [Problem.R problem; Problem.b problem; Problem.s problem;
           Problem.d problem; Problem.alpha problem; Problem.beta problem;
           Problem.gamma problem; Problem.step problem]
      /\ ints_printed (trace (showFields problem))
         = [Problem.nodes problem; Problem.iters problem;
            Problem.accurancy problem; Problem.dimension problem]).
Proof.
  intros k K shown rule. subst K shown rule. cbv beta.
  split; [intros _; apply showArgs_trace|].
  unfold showKernels.
  split; [intros kn ->; reflexivity|].
  split; [intros kk -> ->; reflexivity|].
  split; [intros ke -> -> ->; reflexivity|].
  split; [intros kr -> -> -> ->; reflexivity|].
  split; [intros kep -> -> -> -> ->; reflexivity|].
  split; [intros -> -> -> -> ->; reflexivity|].
  intros _. split; [apply showFields_doubles | apply showFields_ints].
Qed.

(** ** Beyond the claims: the run as a whole *)

(** A start that fails: one [printf] call and nothing else. *)
Lemma main_failure build argv status equation :
  init argv = (status, equation) ->
  status <> success ->
  main build argv
  = if status =? help
    then ([printf REFERENCE_MESSAGE []], 0)
    else ([printf (nl ++ "Run " ++ dquote ++ "%s -h" ++ dquote ++
                   " to get reference" ++ nl) [VStr (argv0 argv)]], 1).
Proof.
  intros Hinit Hs. unfold main. rewrite Hinit.
  destruct (Z.eqb_spec status success); [contradiction|].
  destruct (status =? help); reflexivity.
Qed.

Lemma effects_prints t t' :
  forallb is_printf t = true -> effects (t ++ t') = effects t'.
Proof.
  induction t as [|e t IH]; simpl; [reflexivity|].
  destruct e; simpl; try discriminate; exact IH.
Qed.

(** X1.  What a run does besides printing.  After a successful [init],
    in a build without DEBUG or with a method [showArgs] has a name for,
    it constructs one solver, calls [solve] on it with the [Problem] as
    [init] left it, stores the vector when a path is set, and deletes that
    same solver last; nothing else.  After a failed [init] the run is a
    single [printf] call: nothing is constructed, solved, stored or
    deleted. *)
Theorem main_effects build argv :
  let status := fst (init argv) in
  let equation := snd (init argv) in
  let t := trace (main build argv) in
  if status =? success
  then well_defined build equation ->
       exists c,
         let answer := solve c equation in
         effects t
         = (new_solver c
            :: solve_call c equation answer
            :: match Problem.path equation with
               | Some file =>
                   [storeVector (Result.C answer) file
                      (Problem.nodes equation) (Problem.step equation)
                      (Problem.origin equation) (Problem.accurancy equation)]
               | None => []
               end
            ++ [delete_solver c])%list
  else exists fmt args, t = [printf fmt args].
Proof.
  intros status equation t. subst status equation t.
  destruct (init argv) as [status equation] eqn:Hinit. cbn [fst snd].
  destruct (Z.eqb_spec status success) as [-> | Hs].
  - intros _. exists (selected equation). cbv zeta.
    rewrite (main_success build argv equation Hinit). cbn [trace fst].
    rewrite effects_prints by apply debug_report_prints.
    destruct (ASCETIC build), (Problem.path equation); reflexivity.
  - rewrite (main_failure build argv status equation Hinit Hs).
    destruct (status =? help); eexists; eexists; reflexivity.
Qed.

(** X2.  In a run that, if [init] succeeds, is in a build without DEBUG
    or has a method [showArgs] has a name for: the exit status is 1
    exactly when the status of [init] is neither success nor help, and 0
    exactly when it is one of the two. *)
Theorem main_exit_status build argv :
  let status := fst (init argv) in
  let code := value (main build argv) in
  (status = success -> well_defined build (snd (init argv))) ->
  (code = 1 <-> status <> success /\ status <> help)
  /\ (code = 0 <-> status = success \/ status = help).
Proof.
  intros status code _. subst status code.
  destruct (init argv) as [status equation] eqn:Hinit. cbn [fst].
  destruct (Z.eq_dec status success) as [-> | Hs].
  - rewrite (main_value build argv equation Hinit). split; split.
    + discriminate.
    + intros [H _]. contradiction.
    + auto.
    + reflexivity.
  - rewrite (main_failure build argv status equation Hinit Hs).
    destruct (Z.eqb_spec status help) as [Hh | Hh]; cbn [value snd]; split; split.
    + discriminate.
    + intros [_ H]. contradiction.
    + auto.
    + reflexivity.
    + auto.
    + reflexivity.
    + discriminate.
    + intros [H | H]; contradiction.
Qed.

(** X3.  A DEBUG build differs from the build without DEBUG by a prefix
    only.  After a successful [init] with a method [showArgs] has a name
    for, its run is the output of [showArgs] followed by the other
    build's run, with the same exit status; after a failed [init] the two
    runs are the same. *)
Theorem debug_build_adds_prefix ascetic argv :
  let status := fst (init argv) in
  let equation := snd (init argv) in
  let with_debug := {| DEBUG := true; ASCETIC := ascetic |} in
  let without := {| DEBUG := false; ASCETIC := ascetic |} in
  (status = success -> declared (Problem.method equation)) ->
  main with_debug argv
  = (((if status =? success then trace (showArgs equation) else [])
      ++ trace (main without argv))%list,
     value (main without argv)).
Proof.
  intros status equation with_debug without _.
  subst status equation with_debug without.
  destruct (init argv) as [status equation] eqn:Hinit. cbn [fst snd].
  destruct (Z.eqb_spec status success) as [-> | Hs].
  - rewrite !(main_success _ argv equation Hinit). reflexivity.
  - rewrite !(main_failure _ argv status equation Hinit Hs).
    destruct (status =? help); reflexivity.
Qed.


(** ** Beyond the claims: the calls of printf *)

Lemma showKernels_well_formed k :
  forallb well_formed (trace (showKernels k)) = true.
Proof. unfold showKernels; split_matches; reflexivity. Qed.

Lemma showFields_well_formed problem :
  forallb well_formed (trace (showFields problem)) = true.
Proof. unfold showFields; destruct (Problem.path problem); reflexivity. Qed.

Lemma showArgs_well_formed problem :
  forallb well_formed (trace (showArgs problem)) = true.
Proof.
  rewrite showArgs_trace. cbn [forallb].
  rewrite !forallb_app, showKernels_well_formed, showFields_well_formed.
  reflexivity.
Qed.

(** X4.  Every [printf] call of every run, in every build, is well formed:
    the format parses, the call passes exactly the arguments the format
    fetches (the [int] of each [*] included), and each one has the type of
    its conversion. *)
Theorem main_printf_well_formed build argv :
  forallb well_formed (trace (main build argv)) = true.
Proof.
  destruct (init argv) as [status equation] eqn:Hinit.
  destruct (Z.eq_dec status success) as [-> | Hs].
  - rewrite (main_success build argv equation Hinit). cbn [trace fst].
    rewrite forallb_app. apply andb_true_intro. split.
    + unfold debug_report. destruct (DEBUG build);
        [apply showArgs_well_formed | reflexivity].
    + destruct (ASCETIC build), (Problem.path equation); reflexivity.
  - rewrite (main_failure build argv status equation Hinit Hs).
    destruct (status =? help); [vm_compute | ]; reflexivity.
Qed.

Lemma main_success_strings build argv equation :
  init argv = (success, equation) ->
  strings_printed (trace (main build argv))
  = if DEBUG build
    then methodName equation
         :: match Problem.path equation with
            | Some file => [Chars file]
            | None => []
            end
    else [].
Proof.
  intros Hinit. rewrite (main_success build argv equation Hinit).
  cbn [trace fst]. rewrite strings_printed_app.
  unfold debug_report. destruct (DEBUG build).
  - rewrite showArgs_strings.
    destruct (ASCETIC build), (Problem.path equation); reflexivity.
  - destruct (ASCETIC build), (Problem.path equation); reflexivity.
Qed.

(** X5.  A run hands [%s] a pointer that is not a string in two cases
    only: [init] failed with a status other than help and [argv] is empty,
    so that [argv[0]] is null; or [init] succeeded in a DEBUG build with a
    method that is none of nonlinear_neuman, linear_neuman and nystrom.
    In every other run each [%s] reads a string. *)
Theorem main_strings_safe build argv :
  let status := fst (init argv) in
  let m := Problem.method (snd (init argv)) in
  forallb is_chars (strings_printed (trace (main build argv))) = false
  <-> (status <> success /\ status <> help /\ argv = [])
      \/ (status = success /\ DEBUG build = true
          /\ m <> nonlinear_neuman /\ m <> linear_neuman /\ m <> nystrom).
Proof.
  intros status m. subst status m.
  destruct (init argv) as [status equation] eqn:Hinit. cbn [fst snd].
  destruct (Z.eq_dec status success) as [-> | Hs].
  - rewrite (main_success_strings build argv equation Hinit).
    destruct (DEBUG build).
    + assert (Hpath : forallb is_chars
                        match Problem.path equation with
                        | Some file => [Chars file]
                        | None => []
                        end = true)
        by (destruct (Problem.path equation); reflexivity).
      cbn [forallb]. rewrite Hpath, andb_true_r. unfold methodName.
      destruct (Z.eqb_spec (Problem.method equation) nonlinear_neuman);
        [split; [discriminate | intros [(H & _) | (_ & _ & H & _)]; contradiction]|].
      destruct (Z.eqb_spec (Problem.method equation) linear_neuman);
        [split; [discriminate | intros [(H & _) | (_ & _ & _ & H & _)]; contradiction]|].
      destruct (Z.eqb_spec (Problem.method equation) nystrom);
        [split; [discriminate | intros [(H & _) | (_ & _ & _ & _ & H)]; contradiction]|].
      split; [intros _; right; auto | reflexivity].
    + split; [discriminate|].
      intros [(H & _) | (_ & H & _)]; [contradiction | discriminate].
  - rewrite (main_failure build argv status equation Hinit Hs).
    destruct (Z.eqb_spec status help) as [Hh | Hh].
    + cbn [trace fst]. split; [vm_compute; discriminate|].
      intros [(_ & H & _) | (H & _)]; contradiction.
    + cbn [trace fst]. destruct argv as [|a argv]; cbn [argv0].
      * split; [intros _; left; auto | reflexivity].
      * split; [discriminate|].
        intros [(_ & _ & H) | (H & _)]; [discriminate | contradiction].
Qed.

(** X6.  What a build without DEBUG writes on a successful run.  The
    default build writes the two labelled lines [First moment: N] and
    [C(0) = C0]; the ASCETIC build writes the number N and a newline,
    with no label, so that the output is the number alone. *)
Theorem main_output ascetic argv equation :
  init argv = (success, equation) ->
  let t := trace (main {| DEBUG := false; ASCETIC := ascetic |} argv) in
  exists c,
    let answer := solve c equation in
    let acc := Some (Problem.accurancy equation) in
    solves t = [(c, equation, answer)]
    /\ printed t
       = if ascetic
         then [out_double (Some 15%nat) acc (Result.N answer); out_char "010"]
         else (text "First moment: "
               ++ out_double None acc (Result.N answer)
               :: text (nl ++ "C(0) = ")
               ++ [out_double None acc (getC0 answer); out_char "010"])%list.
Proof.
  intros Hinit t. subst t. exists (selected equation). cbv zeta.
  rewrite (main_solves _ _ _ Hinit). split; [reflexivity|].
  rewrite (main_success _ _ _ Hinit). cbn [trace fst].
  destruct ascetic, (Problem.path equation); reflexivity.
Qed.

(** X7.  The kernel block of [showArgs] makes at most one [printf] call,
    also for an object that casts to several of the five classes, and it
    makes none only when all five casts give the null pointer. *)
Theorem showKernels_one_line k :
  (List.length (trace (showKernels k)) <= 1)%nat
  /\ (trace (showKernels k) = []
      <-> is_some (cast_NormalKernels k)
          || is_some (cast_KurticKernels k)
          || is_some (cast_ExponentKernels k)
          || is_some (cast_RoughgardenKernels k)
          || is_some (cast_ExponentPolynomialKernels k) = false).
Proof.
  unfold showKernels.
  destruct (cast_NormalKernels k), (cast_KurticKernels k),
    (cast_ExponentKernels k), (cast_RoughgardenKernels k),
    (cast_ExponentPolynomialKernels k);
    cbn; (split; [lia | split; intros H; first [discriminate H | reflexivity]]).
Qed.

End Main.

(** ** The format parser on the formats of main.cpp *)

Example printf_star :
  forall n x,
    printf_pieces ("%15.*lf" ++ nl) [VInt n; VDouble x]
    = Some [out_double (Some 15%nat) (Some n) x; out_char "010"].
Proof. reflexivity. Qed.

Example printf_fixed :
  forall x k,
    printf_pieces "a=%10.5lf %d%%" [VDouble x; VInt k]
    = Some (text "a=" ++ [out_double (Some 10%nat) (Some 5) x; out_char " ";
                          out_int k; out_char "%"])%list.
Proof. reflexivity. Qed.

Example printf_help : printf_pieces REFERENCE_MESSAGE [] = Some (text REFERENCE_MESSAGE).
Proof. vm_compute. reflexivity. Qed.

(** ** The sample configuration, run *)

Local Abbreviation sample_main :=
  (main Sample.success Sample.help
        Sample.nonlinear_neuman Sample.linear_neuman Sample.nystrom
        Sample.init Sample.solve Sample.getC0).

Local Abbreviation sample_showArgs :=
  (showArgs Sample.nonlinear_neuman Sample.linear_neuman Sample.nystrom).

Example sample_debug_strings :
  strings_printed (trace (sample_showArgs Sample.problem))
  = [Chars "nystrom"; Chars "c.txt"].
Proof. reflexivity. Qed.

Example sample_planar_strings :
  strings_printed (trace (sample_showArgs Sample.planar)) = [Indeterminate].
Proof. reflexivity. Qed.

Example sample_planar_kernels :
  trace (showKernels (Problem.getKernels Sample.planar)) = [].
Proof. reflexivity. Qed.

Example sample_error_run :
  sample_main Sample.release ["equilibrium"; "-x"]
  = ([printf (nl ++ "Run " ++ dquote ++ "%s -h" ++ dquote ++ " to get reference" ++ nl)
        [VStr (Chars "equilibrium")]], 1).
Proof. reflexivity. Qed.

(** ** Closure weights of the selected solver *)

Lemma with_stored_weights problem :
  with_weights problem
    (Problem.alpha problem, Problem.beta problem, Problem.gamma problem)
  = problem.
Proof. destruct problem; reflexivity. Qed.

(** C7.  With the solvers as the spec describes them, in a run that
    reaches the solver: [main] hands the [Problem] to [solve] as [init]
    left it.  When a method marked LINEAR is in use, that is, in
    dimension 1 or 3 with method linear_neuman or nystrom, the Result is
    that of the selected scheme run with alpha = 1, beta = 0, gamma = 0 in
    place of the stored weights, whatever these are; in every other case
    it is that of the selected scheme run on the [Problem] itself. *)
Theorem linear_methods_force_weights
    (success help nonlinear_neuman linear_neuman nystrom : Z)
    (init : list string -> Z * Problem.t)
    (scheme : AbstractSolver -> Problem.t -> Result.t)
    (getC0 : Result.t -> double)
    (build : Build) (argv : list string) (equation : Problem.t) :
  init argv = (success, equation) ->
  well_defined nonlinear_neuman linear_neuman nystrom build equation ->
  let dim := Problem.dimension equation in
  let m := Problem.method equation in
  let t := trace (main success help nonlinear_neuman linear_neuman nystrom
                    init (solve_with_closure scheme) getC0 build argv) in
  let linear := (dim = 1 \/ dim = 3) /\ (m = linear_neuman \/ m = nystrom) in
  exists c answer,
    solves t = [(c, equation, answer)]
    /\ (linear ->
        closure_weights c equation = (1%float, 0%float, 0%float)
        /\ answer = scheme c (with_weights equation (1%float, 0%float, 0%float)))
    /\ (~ linear ->
        closure_weights c equation
        = (Problem.alpha equation, Problem.beta equation, Problem.gamma equation)
        /\ answer = scheme c equation).
Proof.
  intros Hinit _ dim m t linear. subst t.
  exists (selected linear_neuman nystrom equation).
  exists (solve_with_closure scheme (selected linear_neuman nystrom equation) equation).
  rewrite (main_solves _ _ _ _ _ _ _ _ build argv equation Hinit).
  split; [reflexivity|].
  unfold solve_with_closure, selected. fold dim m. subst linear. split.
  - intros [Hd Hm].
    assert (Hdim : (dim =? 1) || (dim =? 3) = true)
      by (destruct Hd as [-> | ->]; reflexivity).
    rewrite Hdim. destruct Hm as [-> | ->].
    + rewrite Z.eqb_refl. split; reflexivity.
    + rewrite Z.eqb_refl.
      destruct (nystrom =? linear_neuman); split; reflexivity.
  - intros Hn.
    destruct (Z.eqb_spec dim 1) as [E1 | N1];
      [| destruct (Z.eqb_spec dim 3) as [E3 | N3]]; cbn [orb];
      try (cbn [closure_weights]; rewrite with_stored_weights; split; reflexivity);
      (destruct (Z.eqb_spec m linear_neuman);
       [exfalso; apply Hn; auto |
        destruct (Z.eqb_spec m nystrom);
        [exfalso; apply Hn; auto |
         cbn [closure_weights]; rewrite with_stored_weights; split; reflexivity]]).
Qed.

(** ** The sample configuration and the claims *)

Local Abbreviation sample_defined :=
  (well_defined Sample.nonlinear_neuman Sample.linear_neuman Sample.nystrom).

(** The sample in one dimension, in a DEBUG build, gets the Nystrom
    solver; the planar one, in a build without DEBUG, the naive Hankel
    solver although it asks for an undeclared method. *)
Lemma main_selects_solver_witness :
  (Sample.init ["equilibrium"] = (Sample.success, Sample.problem)
   /\ sample_defined Sample.debug Sample.problem
   /\ Sample.linear_neuman <> Sample.nystrom
   /\ constructed (trace (sample_main Sample.debug ["equilibrium"]))
      = [NystromSolver])
  /\ (Sample.init ["equilibrium"; "-D2"] = (Sample.success, Sample.planar)
      /\ sample_defined Sample.release Sample.planar
      /\ constructed (trace (sample_main Sample.release ["equilibrium"; "-D2"]))
         = [SolverDHTNaive]).
Proof.
  assert (Hd1 : sample_defined Sample.debug Sample.problem)
    by (right; right; right; reflexivity).
  assert (Hd2 : sample_defined Sample.release Sample.planar)
    by (left; reflexivity).
  assert (Hne : Sample.linear_neuman <> Sample.nystrom) by discriminate.
  split.
  - split; [reflexivity | split; [exact Hd1 | split; [exact Hne|]]].
    destruct (main_selects_solver Sample.success Sample.help
              Sample.nonlinear_neuman Sample.linear_neuman Sample.nystrom
              Sample.init Sample.solve Sample.getC0
                Sample.debug ["equilibrium"] Sample.problem eq_refl Hd1 Hne)
      as (_ & H & _).
    apply H; [left; reflexivity | reflexivity].
  - split; [reflexivity | split; [exact Hd2|]].
    destruct (main_selects_solver Sample.success Sample.help
              Sample.nonlinear_neuman Sample.linear_neuman Sample.nystrom
              Sample.init Sample.solve Sample.getC0
                Sample.release ["equilibrium"; "-D2"] Sample.planar
                eq_refl Hd2 Hne)
      as (_ & _ & _ & H & _).
    apply H; discriminate.
Defined.

(** A DEBUG build of the planar sample, whose method is undeclared:
    [init] succeeds in dimension 2, and the run hands the unassigned
    [methodName] to [%s] before any solver is constructed. *)
Lemma debug_undeclared_selects_nothing :
  Sample.init ["equilibrium"; "-D2"] = (Sample.success, Sample.planar)
  /\ Problem.dimension Sample.planar = 2
  /\ strings_printed
       (until_undefined (trace (sample_main Sample.debug ["equilibrium"; "-D2"])))
     = [Indeterminate]
  /\ constructed
       (until_undefined (trace (sample_main Sample.debug ["equilibrium"; "-D2"])))
     = [].
Proof. repeat split; reflexivity. Qed.

(** The sample asked for help, and the sample given an unknown option. *)
Lemma main_configuration_failure_witness :
  Sample.success <> Sample.help
  /\ (fst (Sample.init ["equilibrium"; "-h"]) = Sample.help
      /\ sample_main Sample.release ["equilibrium"; "-h"]
         = ([printf REFERENCE_MESSAGE []], 0))
  /\ (fst (Sample.init ["equilibrium"; "-x"]) <> Sample.success
      /\ fst (Sample.init ["equilibrium"; "-x"]) <> Sample.help
      /\ value (sample_main Sample.debug ["equilibrium"; "-x"]) = 1
      /\ constructed (trace (sample_main Sample.debug ["equilibrium"; "-x"])) = []).
Proof.
  assert (Hne : Sample.success <> Sample.help) by discriminate.
  assert (Hs : fst (Sample.init ["equilibrium"; "-x"]) <> Sample.success)
    by discriminate.
  assert (Hh : fst (Sample.init ["equilibrium"; "-x"]) <> Sample.help)
    by discriminate.
  split; [exact Hne|]. split.
  - split; [reflexivity|].
    destruct (main_configuration_failure Sample.success Sample.help
                Sample.nonlinear_neuman Sample.linear_neuman Sample.nystrom
                Sample.init Sample.solve Sample.getC0
                Sample.release ["equilibrium"; "-h"] Hne)
      as (H & _).
    destruct (H eq_refl) as (Ht & _ & Hv).
    rewrite (surjective_pairing (sample_main Sample.release ["equilibrium"; "-h"])).
    exact (f_equal2 pair Ht Hv).
  - split; [exact Hs | split; [exact Hh|]].
    destruct (main_configuration_failure Sample.success Sample.help
                Sample.nonlinear_neuman Sample.linear_neuman Sample.nystrom
                Sample.init Sample.solve Sample.getC0
                Sample.debug ["equilibrium"; "-x"] Hne)
      as (_ & H1 & H2).
    split.
    + exact (proj2 (H1 Hs Hh)).
    + exact (proj1 (H2 Hs)).
Defined.

(** The sample run, in a DEBUG build, solves once, prints N and exits
    with 0. *)
Lemma main_success_exit_witness :
  Sample.init ["equilibrium"] = (Sample.success, Sample.problem)
  /\ sample_defined Sample.debug Sample.problem
  /\ exists c,
       solves (trace (sample_main Sample.debug ["equilibrium"]))
       = [(c, Sample.problem, Sample.solve c Sample.problem)]
       /\ In (Result.N (Sample.solve c Sample.problem))
             (map snd (doubles_printed
                (after_solve (trace (sample_main Sample.debug ["equilibrium"])))))
       /\ value (sample_main Sample.debug ["equilibrium"]) = 0.
Proof.
  assert (Hd : sample_defined Sample.debug Sample.problem)
    by (right; right; right; reflexivity).
  split; [reflexivity | split; [exact Hd|]].
  destruct (main_success_exit Sample.success Sample.help
              Sample.nonlinear_neuman Sample.linear_neuman Sample.nystrom
              Sample.init Sample.solve Sample.getC0
              Sample.debug ["equilibrium"] Sample.problem eq_refl Hd)
    as (c & Hs & Hn & _ & Hv).
  exists c. split; [exact Hs | split; [exact Hn | exact Hv]].
Defined.

(** A DEBUG build of the sample with an undeclared method: [init]
    succeeds, and the run hands the unassigned [methodName] to [%s]
    before [solve] is called and before any exit status is returned. *)
Lemma debug_undeclared_solves_nothing :
  Sample.init ["equilibrium"; "-m7"] = (Sample.success, Sample.stray)
  /\ strings_printed
       (until_undefined (trace (sample_main Sample.debug ["equilibrium"; "-m7"])))
     = [Indeterminate]
  /\ solves
       (until_undefined (trace (sample_main Sample.debug ["equilibrium"; "-m7"])))
     = []
  /\ doubles_printed
       (after_solve
          (until_undefined (trace (sample_main Sample.debug ["equilibrium"; "-m7"]))))
     = [].
Proof. repeat split; reflexivity. Qed.

(** The sample stores its three values in c.txt; the planar one, which
    has no path, stores nothing. *)
Lemma main_stores_vector_witness :
  (Sample.init ["equilibrium"] = (Sample.success, Sample.problem)
   /\ sample_defined Sample.debug Sample.problem
   /\ stores (trace (sample_main Sample.debug ["equilibrium"]))
      = [storeVector [3%float; 2.5%float; 2.25%float] "c.txt"
           50 0.25%float 0%float 4])
  /\ (Sample.init ["equilibrium"; "-D2"] = (Sample.success, Sample.planar)
      /\ sample_defined Sample.release Sample.planar
      /\ stores (trace (sample_main Sample.release ["equilibrium"; "-D2"])) = []).
Proof.
  assert (Hd1 : sample_defined Sample.debug Sample.problem)
    by (right; right; right; reflexivity).
  assert (Hd2 : sample_defined Sample.release Sample.planar)
    by (left; reflexivity).
  split.
  - split; [reflexivity | split; [exact Hd1|]].
    destruct (main_stores_vector Sample.success Sample.help
              Sample.nonlinear_neuman Sample.linear_neuman Sample.nystrom
              Sample.init Sample.solve Sample.getC0
                Sample.debug ["equilibrium"] Sample.problem eq_refl Hd1)
      as (c & _ & H & _).
    exact H.
  - split; [reflexivity | split; [exact Hd2|]].
    destruct (main_stores_vector Sample.success Sample.help
              Sample.nonlinear_neuman Sample.linear_neuman Sample.nystrom
              Sample.init Sample.solve Sample.getC0
                Sample.release ["equilibrium"; "-D2"] Sample.planar eq_refl Hd2)
      as (c & _ & H & _).
    exact H.
Defined.

(** A DEBUG build of the sample with an undeclared method and a path: the
    path is set, and the run hands the unassigned [methodName] to [%s]
    with no [storeVector] call made. *)
Lemma debug_undeclared_stores_nothing :
  Sample.init ["equilibrium"; "-m7"] = (Sample.success, Sample.stray)
  /\ Problem.path Sample.stray = Some "c.txt"
  /\ strings_printed
       (until_undefined (trace (sample_main Sample.debug ["equilibrium"; "-m7"])))
     = [Indeterminate]
  /\ stores
       (until_undefined (trace (sample_main Sample.debug ["equilibrium"; "-m7"])))
     = [].
Proof. repeat split; reflexivity. Qed.




(** The sample and its coarse variant, which differ in grid, weights,
    accuracy and path, in different builds. *)
Lemma main_selection_noninterference_witness :
  Sample.init ["equilibrium"] = (Sample.success, Sample.problem)
  /\ Sample.init ["equilibrium"; "-n10"] = (Sample.success, Sample.coarse)
  /\ sample_defined Sample.release Sample.problem
  /\ sample_defined Sample.debug Sample.coarse
  /\ Problem.dimension Sample.problem = Problem.dimension Sample.coarse
  /\ Problem.method Sample.problem = Problem.method Sample.coarse
  /\ exists c,
       constructed (trace (sample_main Sample.release ["equilibrium"])) = [c]
       /\ constructed (trace (sample_main Sample.debug ["equilibrium"; "-n10"])) = [c]
       /\ solves (trace (sample_main Sample.release ["equilibrium"]))
          = [(c, Sample.problem, Sample.solve c Sample.problem)]
       /\ solves (trace (sample_main Sample.debug ["equilibrium"; "-n10"]))
          = [(c, Sample.coarse, Sample.solve c Sample.coarse)].
Proof.
  assert (Hd1 : sample_defined Sample.release Sample.problem)
    by (left; reflexivity).
  assert (Hd2 : sample_defined Sample.debug Sample.coarse)
    by (right; right; right; reflexivity).
  split; [reflexivity | split; [reflexivity|]].
  split; [exact Hd1 | split; [exact Hd2|]].
  split; [reflexivity | split; [reflexivity|]].
  exact (main_selection_noninterference Sample.success Sample.help
              Sample.nonlinear_neuman Sample.linear_neuman Sample.nystrom
              Sample.init Sample.solve Sample.getC0
           Sample.release Sample.debug ["equilibrium"] ["equilibrium"; "-n10"]
           Sample.problem Sample.coarse eq_refl eq_refl Hd1 Hd2 eq_refl eq_refl).
Defined.

(** With a scheme that answers with the weights it is given: the sample,
    solved by Nystrom, is run with (1, 0, 0) although it stores
    (0.5, 0.25, 0.25); the planar one is run with what it stores. *)
Lemma linear_methods_force_weights_witness :
  (Sample.init ["equilibrium"] = (Sample.success, Sample.problem)
   /\ sample_defined Sample.debug Sample.problem
   /\ exists c answer,
        solves (trace (main Sample.success Sample.help
                         Sample.nonlinear_neuman Sample.linear_neuman Sample.nystrom
                         Sample.init (solve_with_closure Sample.echo) Sample.getC0
                         Sample.debug ["equilibrium"]))
        = [(c, Sample.problem, answer)]
        /\ Result.C answer = [1%float; 0%float; 0%float])
  /\ (Sample.init ["equilibrium"; "-D2"] = (Sample.success, Sample.planar)
      /\ sample_defined Sample.release Sample.planar
      /\ exists c answer,
           solves (trace (main Sample.success Sample.help
                            Sample.nonlinear_neuman Sample.linear_neuman Sample.nystrom
                            Sample.init (solve_with_closure Sample.echo) Sample.getC0
                            Sample.release ["equilibrium"; "-D2"]))
           = [(c, Sample.planar, answer)]
           /\ Result.C answer = [0.5%float; 0.25%float; 0.25%float]).
Proof.
  assert (Hd1 : sample_defined Sample.debug Sample.problem)
    by (right; right; right; reflexivity).
  assert (Hd2 : sample_defined Sample.release Sample.planar)
    by (left; reflexivity).
  split.
  - split; [reflexivity | split; [exact Hd1|]].
    destruct (linear_methods_force_weights Sample.success Sample.help
                Sample.nonlinear_neuman Sample.linear_neuman Sample.nystrom
                Sample.init Sample.echo Sample.getC0
                Sample.debug ["equilibrium"] Sample.problem eq_refl Hd1)
      as (c & answer & Hs & Hl & _).
    exists c, answer. split; [exact Hs|].
    destruct Hl as [_ Ha]; [split; [left; reflexivity | right; reflexivity]|].
    rewrite Ha. reflexivity.
  - split; [reflexivity | split; [exact Hd2|]].
    destruct (linear_methods_force_weights Sample.success Sample.help
                Sample.nonlinear_neuman Sample.linear_neuman Sample.nystrom
                Sample.init Sample.echo Sample.getC0
                Sample.release ["equilibrium"; "-D2"] Sample.planar eq_refl Hd2)
      as (c & answer & Hs & _ & Hn).
    exists c, answer. split; [exact Hs|].
    destruct Hn as [_ Ha]; [intros [[H | H] _]; discriminate H|].
    rewrite Ha. reflexivity.
Defined.

(** A kernel object of none of the five classes, with a declared method:
    no kernel line, and the fields between the two rules. *)
Lemma showArgs_kernels_witness :
  declared Sample.nonlinear_neuman Sample.linear_neuman Sample.nystrom
    (Problem.method Sample.tophat)
  /\ trace (sample_showArgs Sample.tophat)
     = (printf ("-------------------------------------" ++ nl) []
        :: trace (showFields Sample.nonlinear_neuman Sample.linear_neuman
                    Sample.nystrom Sample.tophat)
        ++ [printf ("-------------------------------------" ++ nl) []])%list
  /\ ints_printed (trace (showFields Sample.nonlinear_neuman Sample.linear_neuman
                            Sample.nystrom Sample.tophat))
     = [50; 1000; 4; 2].
Proof.
  assert (Hm : declared Sample.nonlinear_neuman Sample.linear_neuman Sample.nystrom
                 (Problem.method Sample.tophat))
    by (left; reflexivity).
  destruct (showArgs_kernels Sample.nonlinear_neuman Sample.linear_neuman
              Sample.nystrom Sample.tophat)
    as (Ht & _ & _ & _ & _ & _ & Hk & Hf).
  split; [exact Hm | split].
  - rewrite (Ht Hm), (Hk eq_refl eq_refl eq_refl eq_refl eq_refl). reflexivity.
  - exact (proj2 (Hf Hm)).
Defined.

(** ** The sample configuration, beyond the claims *)

Example sample_effects :
  effects (trace (sample_main Sample.debug ["equilibrium"]))
  = [new_solver NystromSolver;
     solve_call NystromSolver Sample.problem
       (Sample.solve NystromSolver Sample.problem);
     storeVector [3%float; 2.5%float; 2.25%float] "c.txt"
       50 0.25%float 0%float 4;
     delete_solver NystromSolver].
Proof. reflexivity. Qed.

Example sample_empty_argv :
  strings_printed (trace (sample_main Sample.release [])) = [NullPtr]
  /\ value (sample_main Sample.release []) = 1.
Proof. split; reflexivity. Qed.

(** A DEBUG build of the sample: the effects of the run. *)
Lemma main_effects_witness :
  sample_defined Sample.debug Sample.problem
  /\ exists c,
       effects (trace (sample_main Sample.debug ["equilibrium"]))
       = [new_solver c;
          solve_call c Sample.problem (Sample.solve c Sample.problem);
          storeVector [3%float; 2.5%float; 2.25%float] "c.txt"
            50 0.25%float 0%float 4;
          delete_solver c].
Proof.
  assert (Hd : sample_defined Sample.debug Sample.problem)
    by (right; right; right; reflexivity).
  split; [exact Hd|].
  exact (main_effects Sample.success Sample.help
              Sample.nonlinear_neuman Sample.linear_neuman Sample.nystrom
              Sample.init Sample.solve Sample.getC0 Sample.debug ["equilibrium"] Hd).
Defined.

(** A DEBUG build of the sample exits with 0, and 0 is not 1. *)
Lemma main_exit_status_witness :
  (fst (Sample.init ["equilibrium"]) = Sample.success ->
   sample_defined Sample.debug (snd (Sample.init ["equilibrium"])))
  /\ value (sample_main Sample.debug ["equilibrium"]) = 0.
Proof.
  assert (Hd : fst (Sample.init ["equilibrium"]) = Sample.success ->
               sample_defined Sample.debug (snd (Sample.init ["equilibrium"])))
    by (intros _; right; right; right; reflexivity).
  split; [exact Hd|].
  destruct (main_exit_status Sample.success Sample.help
              Sample.nonlinear_neuman Sample.linear_neuman Sample.nystrom
              Sample.init Sample.solve Sample.getC0 Sample.debug ["equilibrium"] Hd) as (_ & H).
  apply H. left. reflexivity.
Defined.

(** The DEBUG build of the sample is its build without DEBUG after the
    five lines of [showArgs]. *)
Lemma debug_build_adds_prefix_witness :
  (fst (Sample.init ["equilibrium"]) = Sample.success ->
   declared Sample.nonlinear_neuman Sample.linear_neuman Sample.nystrom
     (Problem.method (snd (Sample.init ["equilibrium"]))))
  /\ sample_main Sample.debug ["equilibrium"]
     = ((trace (sample_showArgs Sample.problem)
         ++ trace (sample_main Sample.release ["equilibrium"]))%list,
        value (sample_main Sample.release ["equilibrium"])).
Proof.
  assert (Hm : fst (Sample.init ["equilibrium"]) = Sample.success ->
               declared Sample.nonlinear_neuman Sample.linear_neuman Sample.nystrom
                 (Problem.method (snd (Sample.init ["equilibrium"]))))
    by (intros _; right; right; reflexivity).
  split; [exact Hm|].
  exact (debug_build_adds_prefix Sample.success Sample.help
              Sample.nonlinear_neuman Sample.linear_neuman Sample.nystrom
              Sample.init Sample.solve Sample.getC0 false ["equilibrium"] Hm).
Defined.

(** The ASCETIC build of the sample writes the number 2 with four decimals
    in a field of fifteen characters, then a newline. *)
Lemma main_output_witness :
  Sample.init ["equilibrium"] = (Sample.success, Sample.problem)
  /\ printed (trace (sample_main Sample.ascetic ["equilibrium"]))
     = [out_double (Some 15%nat) (Some 4) 2%float; out_char "010"].
Proof.
  split; [reflexivity|].
  destruct (main_output Sample.success Sample.help
              Sample.nonlinear_neuman Sample.linear_neuman Sample.nystrom
              Sample.init Sample.solve Sample.getC0
              true ["equilibrium"] Sample.problem eq_refl)
    as (c & _ & H).
  exact H.
Defined.
